(** * DocSearch scraper entry point: [scraper/src/index.py]

  A shallow embedding of [run_config], the driver that loads a
  configuration, resolves the authentication headers from the process
  environment, runs the crawl, adds the configured extra records and
  then either promotes the temporary collection or leaves the process
  with [EXIT_CODE_NO_RECORD].

  The driver talks to a handful of objects ([TypesenseHelper],
  [CrawlerProcess], [DocumentationSpider], [BrowserHandler], ...).
  Every call it makes on them is logged as an [event], in program
  order; the two class attributes it assigns live in a [world] that is
  threaded through the run. *)

From Stdlib Require Import ZArith.
From stdpp Require Import base option list strings gmap pretty.

Local Open Scope Z_scope.

(** ** Constants of the module *)

(** [EXIT_CODE_NO_RECORD = 3] (line 30). *)
Definition EXIT_CODE_NO_RECORD : Z := 3.

(** [root_module]: both arms of the conditional at line 47 are the same
  literal. *)
Definition root_module : string := "scraper.src.".

(** [DOWNLOADER_MIDDLEWARES_PATH] and [DUPEFILTER_CLASS_PATH]
  (lines 48-49); [__name__] of a class is its name. *)
Definition DOWNLOADER_MIDDLEWARES_PATH : string :=
  root_module +:+ "custom_downloader_middleware." +:+ "CustomDownloaderMiddleware".
Definition DUPEFILTER_CLASS_PATH : string :=
  root_module +:+ "custom_dupefilter." +:+ "CustomDupeFilter".

(** The literal [headers] starts from (lines 51-54). *)
Definition default_headers : gmap string string :=
  {[ "Accept" := "text/html,application/xhtml+xml,application/xml;q=0.9,*/*;q=0.8";
     "Accept-Language" := "en" ]}.

(** ** The process environment *)

Module Env.

(** [os.getenv(k)]: [None] when the variable is not set. *)
Definition getenv (env : gmap string string) (k : string) : option string :=
  env !! k.

(** Python's truth value of what [os.getenv] returns: [None] and the
    empty string are false. *)
Definition truthy (v : option string) : bool :=
  match v with
  | None => false
  | Some s => negb (String.eqb s "")
  end.

(** The returned value read as a [str]; the driver only reads it in a
    branch guarded by [truthy]. *)
Definition str (v : option string) : string := default "" v.

(** [d.update(u)]: the keys of [u] are written over [d]. *)
Definition update (d u : gmap string string) : gmap string string := u ∪ d.

End Env.

(** ** Data the driver handles *)

(** A record, the custom settings of the collection and the browser
    handle are opaque to the driver. *)
Class Types := {
  Rec : Type;
  Settings : Type;
  Browser : Type
}.

Section Driver.

Context `{Types}.

(** The attributes and methods of a loaded configuration that
    [run_config] uses. *)
Record ConfigLoader := {
  driver : Browser;
  index_name : string;
  index_name_tmp : string;
  custom_settings : Settings;
  user_agent : string;
  use_anchors : bool;
  extra_records : list Rec
}.

(** The settings dictionary handed to [CrawlerProcess] (lines 94-105). *)
Record CrawlerSettings := {
  LOG_ENABLED : string;
  LOG_LEVEL : string;
  USER_AGENT : string;
  DOWNLOADER_MIDDLEWARES : list (string * Z);
  DUPEFILTER_USE_ANCHORS : bool;
  DUPEFILTER_CLASS : string;
  DEFAULT_REQUEST_HEADERS : gmap string string;
  TELNETCONSOLE_ENABLED : bool
}.

(** One page as the spider sees it: its URL, the records extracted from
    it, and whether it was reached through a sitemap. *)
Record Page := {
  page_url : string;
  page_records : list Rec;
  page_from_sitemap : bool
}.

(** Calls on the collaborators, and lines written to standard output. *)
Inductive event :=
| NewDefaultStrategy (config : ConfigLoader)
| NewTypesenseHelper (alias_name collection_name_tmp : string) (settings : Settings)
| CreateTmpCollection
| IAPAuth (client_id service_account_json : string)
| KeycloakClientCredentials (server_url realm_name client_id client_secret : string)
| NewCrawlerProcess (settings : CrawlerSettings)
| ProcessCrawl (config : ConfigLoader)
| ProcessStart
| ProcessStop
| BrowserDestroy (d : Browser)
| AddRecords (records : list Rec) (url : string) (from_sitemap : bool)
| CommitTmpCollection
| UpdateNbHitsValue (n : Z)
| PrintLine (line : string).

(** The class attributes [run_config] assigns:
    [DocumentationSpider.NB_INDEXED] and
    [CustomDownloaderMiddleware.driver]. They outlive a call. *)
Record world := {
  NB_INDEXED : Z;
  middleware_driver : option Browser
}.

(** ** The monad of the driver: state, log, and [SystemExit] *)

Inductive result (A : Type) :=
| Returned (a : A)
| SystemExit (code : Z).
Global Arguments Returned {A} a.
Global Arguments SystemExit {A} code.

Definition M (A : Type) : Type := world → world * list event * result A.

Global Instance M_ret : MRet M := λ A a w, (w, [], Returned a).

Global Instance M_bind : MBind M := λ A B f m w,
  match m w with
  | (w1, log1, Returned a) =>
      match f a w1 with
      | (w2, log2, r) => (w2, log1 ++ log2, r)
      end
  | (w1, log1, SystemExit code) => (w1, log1, SystemExit code)
  end.

Definition emit (e : event) : M unit := λ w, (w, [e], Returned ()).

(** [exit(code)]. *)
Definition exit {A} (code : Z) : M A := λ w, (w, [], SystemExit code).

Definition get_NB_INDEXED : M Z := λ w, (w, [], Returned (NB_INDEXED w)).

Definition set_NB_INDEXED (n : Z) : M unit := λ w,
  ({| NB_INDEXED := n; middleware_driver := middleware_driver w |}, [], Returned ()).

Definition set_middleware_driver (d : Browser) : M unit := λ w,
  ({| NB_INDEXED := NB_INDEXED w; middleware_driver := Some d |}, [], Returned ()).

(** [print(line)]. *)
Definition print (line : string) : M unit := emit (PrintLine line).

(** The three components of a run. *)
Definition final_world {A} (r : world * list event * result A) : world := r.1.1.
Definition events {A} (r : world * list event * result A) : list event := r.1.2.
Definition outcome {A} (r : world * list event * result A) : result A := r.2.

(** ** Collaborators *)

(** What the driver takes from code outside this module: the loaded
    configuration, the two token exchanges, and the pages the crawl
    reaches. *)
Class Collaborators := {
  (** [ConfigLoader(config)] *)
  load_config : string → ConfigLoader;
  (** [IAPAuth(client_id=..., service_account_secret_dict=json.loads(...))
      (requests.Request()).headers["Authorization"]] *)
  iap_authorization : string → string → string;
  (** [KeycloakRealm(...).open_id_connect(...).client_credentials()["access_token"]] *)
  keycloak_access_token : string → string → string → string → string;
  (** the pages [DocumentationSpider] parses while [process.start()] runs *)
  crawled_pages : ConfigLoader → CrawlerSettings → list Page
}.

Context `{Collaborators}.

(** Modelled from the spec: [TypesenseHelper.add_records] is not in the
    sources. The staged indexing client "appends Records to the staging
    index in batches"; counting indexed records is the crawl driver's
    job, so the call leaves [NB_INDEXED] alone. *)
Definition add_records (records : list Rec) (url : string) (from_sitemap : bool) : M unit :=
  emit (AddRecords records url from_sitemap).

(** Modelled from the spec: [DocumentationSpider] is not in the sources.
    The crawl driver runs the extraction on each fetched page,
    "forwards Records to the Indexing Client" and "tracks total
    indexed-record count": one [add_records] per page, and
    [NB_INDEXED] grows by the number of records of the page. *)
Fixpoint spider_crawl (pages : list Page) : M unit :=
  match pages with
  | [] => mret ()
  | p :: rest =>
      add_records (page_records p) (page_url p) (page_from_sitemap p);;
      n ← get_NB_INDEXED;
      set_NB_INDEXED (n + Z.of_nat (length (page_records p)));;
      spider_crawl rest
  end.

(** ** [run_config] *)

(** Lines 34-44: the configuration is loaded, the two class attributes
    are assigned, the strategy and the Typesense helper are built. The
    call of [create_tmp_collection] at line 45 is commented out. *)
Definition setup (config_path : string) : M ConfigLoader :=
  let config := load_config config_path in
  set_middleware_driver (driver config);;
  set_NB_INDEXED 0;;
  emit (NewDefaultStrategy config);;
  emit (NewTypesenseHelper (index_name config) (index_name_tmp config)
                           (custom_settings config));;
  mret config.

(** Lines 51-92: the [if]/[elif]/[elif] chain over the environment. *)
Definition resolve_headers (env : gmap string string) : M (gmap string string) :=
  let headers := default_headers in
  let getenv := Env.getenv env in
  (* Cloudflare Zero Trust (CF) *)
  if Env.truthy (getenv "CF_ACCESS_CLIENT_ID") &&
     Env.truthy (getenv "CF_ACCESS_CLIENT_SECRET")
  then
    mret (Env.update headers
            {[ "CF-Access-Client-Id" := Env.str (getenv "CF_ACCESS_CLIENT_ID");
               "CF-Access-Client-Secret" := Env.str (getenv "CF_ACCESS_CLIENT_SECRET") ]})
  (* Google Identity-Aware Proxy (IAP) *)
  else if Env.truthy (getenv "IAP_AUTH_CLIENT_ID") &&
          Env.truthy (getenv "IAP_AUTH_SERVICE_ACCOUNT_JSON")
  then
    let client_id := Env.str (getenv "IAP_AUTH_CLIENT_ID") in
    let secret := Env.str (getenv "IAP_AUTH_SERVICE_ACCOUNT_JSON") in
    emit (IAPAuth client_id secret);;
    let iap_token := iap_authorization client_id secret in
    mret (Env.update headers {[ "Authorization" := iap_token ]})
  (* Keycloak (KC) *)
  else if Env.truthy (getenv "KC_URL") &&
          Env.truthy (getenv "KC_REALM") &&
          Env.truthy (getenv "KC_CLIENT_ID") &&
          Env.truthy (getenv "KC_CLIENT_SECRET")
  then
    let url := Env.str (getenv "KC_URL") in
    let realm := Env.str (getenv "KC_REALM") in
    let client_id := Env.str (getenv "KC_CLIENT_ID") in
    let client_secret := Env.str (getenv "KC_CLIENT_SECRET") in
    emit (KeycloakClientCredentials url realm client_id client_secret);;
    let token := keycloak_access_token url realm client_id client_secret in
    mret (Env.update headers {[ "Authorization" := "bearer " +:+ token ]})
  else
    mret headers.

(** The dictionary of lines 94-105. *)
Definition crawler_settings (config : ConfigLoader)
    (headers : gmap string string) : CrawlerSettings :=
  {| LOG_ENABLED := "1";
     LOG_LEVEL := "ERROR";
     USER_AGENT := user_agent config;
     DOWNLOADER_MIDDLEWARES := [(DOWNLOADER_MIDDLEWARES_PATH, 900)];
     DUPEFILTER_USE_ANCHORS := use_anchors config;
     DUPEFILTER_CLASS := DUPEFILTER_CLASS_PATH;
     DEFAULT_REQUEST_HEADERS := headers;
     TELNETCONSOLE_ENABLED := false |}.

(** Lines 94-118: the crawler process is built, the spider registered,
    and the crawl runs to its end inside [process.start()]. *)
Definition crawl (config : ConfigLoader) (headers : gmap string string) : M unit :=
  let settings := crawler_settings config headers in
  emit (NewCrawlerProcess settings);;
  emit (ProcessCrawl config);;
  emit ProcessStart;;
  spider_crawl (crawled_pages config settings);;
  emit ProcessStop;;
  emit (BrowserDestroy (driver config)).

(** Lines 120-132: extra records, then the gate on [NB_INDEXED]. *)
Definition finish (config : ConfigLoader) : M unit :=
  (if bool_decide (0 < length (extra_records config))%nat
   then add_records (extra_records config) "Extra records" false
   else mret ());;
  print "";;
  nb ← get_NB_INDEXED;
  (if bool_decide (0 < nb)
   then
     emit CommitTmpCollection;;
     print ("Nb hits: " +:+ pretty nb);;
     emit (UpdateNbHitsValue nb)
   else
     print ("Crawling issue: nbHits 0 for " +:+ index_name config);;
     exit EXIT_CODE_NO_RECORD);;
  print "".

Definition run_config (env : gmap string string) (config_path : string) : M unit :=
  config ← setup config_path;
  headers ← resolve_headers env;
  crawl config headers;;
  finish config.

(** ** Reading a log *)

Definition is_commit (e : event) : bool :=
  match e with CommitTmpCollection => true | _ => false end.


Definition is_add_records (e : event) : bool :=
  match e with AddRecords _ _ _ => true | _ => false end.

Definition is_token_exchange (e : event) : bool :=
  match e with IAPAuth _ _ | KeycloakClientCredentials _ _ _ _ => true | _ => false end.

(** How many events of a log satisfy [p]. *)
Fixpoint count (p : event → bool) (log : list event) : nat :=
  match log with
  | [] => 0%nat
  | e :: log' => ((if p e then 1 else 0) + count p log')%nat
  end.

(** The lines written to standard output, in order. *)
Definition printed (log : list event) : list string :=
  omap (λ e, match e with PrintLine line => Some line | _ => None end) log.

(** The arguments of the calls of [config.update_nb_hits_value]. *)
Definition nb_hits_updates (log : list event) : list Z :=
  omap (λ e, match e with UpdateNbHitsValue n => Some n | _ => None end) log.

(** The [DEFAULT_REQUEST_HEADERS] of every crawler process built. *)
Definition request_headers (log : list event) : list (gmap string string) :=
  omap (λ e, match e with
             | NewCrawlerProcess s => Some (DEFAULT_REQUEST_HEADERS s)
             | _ => None
             end) log.

(** ** The authentication schemes, as the specification names them *)

Inductive scheme := Cloudflare | IAP | Keycloak.

(** The fixed order in which the schemes are tried. *)
Definition scheme_order : list scheme := [Cloudflare; IAP; Keycloak].

(** The environment variables of a scheme. *)
Definition scheme_vars (s : scheme) : list string :=
  match s with
  | Cloudflare => ["CF_ACCESS_CLIENT_ID"; "CF_ACCESS_CLIENT_SECRET"]
  | IAP => ["IAP_AUTH_CLIENT_ID"; "IAP_AUTH_SERVICE_ACCOUNT_JSON"]
  | Keycloak => ["KC_URL"; "KC_REALM"; "KC_CLIENT_ID"; "KC_CLIENT_SECRET"]
  end.

(** A scheme is configured when each of its variables holds a non-empty
    string. *)
Definition configured (env : gmap string string) (s : scheme) : bool :=
  forallb (λ k, Env.truthy (Env.getenv env k)) (scheme_vars s).

(** First match in the fixed order. *)
Definition first_configured (env : gmap string string) : option scheme :=
  List.find (configured env) scheme_order.

(** The headers a scheme contributes. *)
Definition scheme_headers (env : gmap string string) (s : option scheme)
    : gmap string string :=
  let v k := Env.str (Env.getenv env k) in
  match s with
  | Some Cloudflare =>
      {[ "CF-Access-Client-Id" := v "CF_ACCESS_CLIENT_ID";
         "CF-Access-Client-Secret" := v "CF_ACCESS_CLIENT_SECRET" ]}
  | Some IAP =>
      {[ "Authorization" :=
           iap_authorization (v "IAP_AUTH_CLIENT_ID") (v "IAP_AUTH_SERVICE_ACCOUNT_JSON") ]}
  | Some Keycloak =>
      {[ "Authorization" :=
           "bearer " +:+ keycloak_access_token (v "KC_URL") (v "KC_REALM")
                           (v "KC_CLIENT_ID") (v "KC_CLIENT_SECRET") ]}
  | None => ∅
  end.

(** The token exchange a scheme needs. *)
Definition scheme_calls (env : gmap string string) (s : option scheme) : list event :=
  let v k := Env.str (Env.getenv env k) in
  match s with
  | Some IAP => [IAPAuth (v "IAP_AUTH_CLIENT_ID") (v "IAP_AUTH_SERVICE_ACCOUNT_JSON")]
  | Some Keycloak =>
      [KeycloakClientCredentials (v "KC_URL") (v "KC_REALM")
         (v "KC_CLIENT_ID") (v "KC_CLIENT_SECRET")]
  | Some Cloudflare | None => []
  end.


(** ** The parts of a run *)

(** Records indexed by the spider over a list of pages. *)
Definition total_records (pages : list Page) : Z :=
  foldr (λ p acc, Z.of_nat (length (page_records p)) + acc) 0 pages.

Definition spider_calls (pages : list Page) : list event :=
  (λ p, AddRecords (page_records p) (page_url p) (page_from_sitemap p)) <$> pages.

(** The headers and settings of the run, and the pages it crawls. *)
Definition run_headers (env : gmap string string) : gmap string string :=
  Env.update default_headers (scheme_headers env (first_configured env)).

Definition run_settings (env : gmap string string) (config_path : string)
    : CrawlerSettings :=
  crawler_settings (load_config config_path) (run_headers env).

Definition run_pages (env : gmap string string) (config_path : string) : list Page :=
  crawled_pages (load_config config_path) (run_settings env config_path).

(** The records the run indexes. *)
Definition run_total (env : gmap string string) (config_path : string) : Z :=
  total_records (run_pages env config_path).

Definition extra_calls (config : ConfigLoader) : list event :=
  match extra_records config with
  | [] => []
  | _ :: _ => [AddRecords (extra_records config) "Extra records" false]
  end.

Definition gate_calls (config : ConfigLoader) (nb : Z) : list event :=
  if bool_decide (0 < nb)
  then [CommitTmpCollection; PrintLine ("Nb hits: " +:+ pretty nb);
        UpdateNbHitsValue nb; PrintLine ""]
  else [PrintLine ("Crawling issue: nbHits 0 for " +:+ index_name config)].

(** A reader that sees neither the records added nor the token
    exchanges. *)
Definition blind_to_traffic {B} (f : event → option B) : Prop :=
  (∀ rs u b, f (AddRecords rs u b) = None) ∧
  (∀ a b, f (IAPAuth a b) = None) ∧
  (∀ a b c d, f (KeycloakClientCredentials a b c d) = None).

(** A predicate on events read as a reader that keeps what it accepts. *)
Definition keep (p : event → bool) (e : event) : option event :=
  if p e then Some e else None.

(** ** Properties of a log *)



(** Some, but not all, variables of a scheme hold a non-empty string. *)
Definition partially_configured (env : gmap string string) (s : scheme) : bool :=
  existsb (λ k, Env.truthy (Env.getenv env k)) (scheme_vars s)
  && negb (configured env s).

(** ** More readers of a log *)

Definition is_process_stop (e : event) : bool :=
  match e with ProcessStop => true | _ => false end.

Definition is_new_process (e : event) : bool :=
  match e with NewCrawlerProcess _ => true | _ => false end.

(** The steps every run goes through, apart from its traffic, its
    output and what the gate does. *)
Inductive step :=
| StrategyBuilt | HelperBuilt | ProcessBuilt | SpiderRegistered
| CrawlStarted | CrawlStopped | BrowserDestroyed.

Definition lifecycle_step (e : event) : option step :=
  match e with
  | NewDefaultStrategy _ => Some StrategyBuilt
  | NewTypesenseHelper _ _ _ => Some HelperBuilt
  | NewCrawlerProcess _ => Some ProcessBuilt
  | ProcessCrawl _ => Some SpiderRegistered
  | ProcessStart => Some CrawlStarted
  | ProcessStop => Some CrawlStopped
  | BrowserDestroy _ => Some BrowserDestroyed
  | _ => None
  end.




(** The settings of every [CrawlerProcess(...)]. *)
Definition built_processes (log : list event) : list CrawlerSettings :=
  omap (λ e, match e with NewCrawlerProcess s => Some s | _ => None end) log.

(** Line 47 as written, for a module whose [__name__] is [name]. *)
Definition root_module_for (name : string) : string :=
  if String.eqb name "__main__" then "scraper.src." else "scraper.src.".

(** ** The module run as a script (lines 135-190) *)






End Driver.

(** ** Start of the module (lines 21-28) *)

Module Startup.

Inductive exn := ImportError | KeyError.

(** [s.remove(x)] on a set: [KeyError] when [x] is not in it. *)
Definition set_remove (x : string) (s : gset string) : exn + gset string :=
  if decide (x ∈ s) then inr (s ∖ {[x]}) else inl KeyError.

(** The [try] block. [imported] is what [from scrapy import
    optional_features] yields, [None] for an [ImportError]. The result is
    the set as the block leaves it ([None] when there is none), or the
    exception that escapes: only [ImportError] is caught. *)
Definition disable_boto (imported : option (gset string)) : exn + option (gset string) :=
  match imported with
  | None => inr None
  | Some optional_features =>
      if decide ("boto" ∈ optional_features)
      then match set_remove "boto" optional_features with
           | inr s => inr (Some s)
           | inl ImportError => inr None
           | inl e => inl e
           end
      else inr (Some optional_features)
  end.

End Startup.

(** ** A concrete deployment, to run the driver on *)

Module Demo.

(** Records are numbered; settings and the browser handle are strings. *)
Definition types : Types :=
  {| Rec := nat; Settings := string; Browser := string |}.

Definition page (url : string) (records : list nat) : @Page types :=
  @Build_Page types url records false.

(** The configuration file at [path]: the index is named after it, and
    one extra record is configured. *)
Definition config_at (path : string) : @ConfigLoader types :=
  @Build_ConfigLoader types
    "firefox"            (* driver *)
    path                 (* index_name *)
    (path +:+ "_tmp")    (* index_name_tmp *)
    "{}"                 (* custom_settings *)
    "docsearch"          (* user_agent *)
    false                (* use_anchors *)
    [100%nat]            (* extra_records *).

(** A site of two pages with three records in all, and one extra record
    in the configuration. *)
Definition site : @Collaborators types :=
  {| load_config := config_at;
     iap_authorization := λ _ _, "Bearer iap-token";
     keycloak_access_token := λ _ _ _ _, "kc-token";
     crawled_pages := λ _ _,
       [page "https://curling.io/docs/" [1%nat; 2%nat];
        page "https://curling.io/docs/a" [3%nat]] |}.

(** The same site when no page yields a record. *)
Definition empty_site : @Collaborators types :=
  {| load_config := @load_config _ site;
     iap_authorization := @iap_authorization _ site;
     keycloak_access_token := @keycloak_access_token _ site;
     crawled_pages := λ _ _, [] |}.

Definition no_auth : gmap string string := ∅.

Definition cloudflare_env : gmap string string :=
  {[ "CF_ACCESS_CLIENT_ID" := "id.access";
     "CF_ACCESS_CLIENT_SECRET" := "s3cret" ]}.

(** Cloudflare half set, the proxy fully set. *)
Definition half_cloudflare_env : gmap string string :=
  {[ "CF_ACCESS_CLIENT_ID" := "id.access";
     "IAP_AUTH_CLIENT_ID" := "iap-client";
     "IAP_AUTH_SERVICE_ACCOUNT_JSON" := "{}" ]}.

(** Cloudflare and the proxy half set, Keycloak fully set. *)
Definition keycloak_env : gmap string string :=
  {[ "CF_ACCESS_CLIENT_SECRET" := "s3cret";
     "IAP_AUTH_CLIENT_ID" := "iap-client";
     "KC_URL" := "https://kc";
     "KC_REALM" := "docs";
     "KC_CLIENT_ID" := "scraper";
     "KC_CLIENT_SECRET" := "kc-secret" ]}.

(** A process in which an earlier run has left the counter at 698. *)
Definition used_world : @world types :=
  @Build_world types 698 (Some "chrome").

Definition fresh_world : @world types :=
  @Build_world types 0 None.

End Demo.

Section DriverFacts.

Context `{Types} `{!Collaborators}.

(** ** How the parts run *)

Lemma bind_returned {A B} (m : M A) (f : A → M B) w w1 log1 a :
  m w = (w1, log1, Returned a) →
  (m ≫= f) w = (let '(w2, log2, r) := f a w1 in (w2, log1 ++ log2, r)).
Proof. intros Hm. unfold mbind, M_bind. by rewrite Hm. Qed.

Lemma bind_exited {A B} (m : M A) (f : A → M B) w w1 log1 code :
  m w = (w1, log1, SystemExit code) →
  (m ≫= f) w = (w1, log1, SystemExit code).
Proof. intros Hm. unfold mbind, M_bind. by rewrite Hm. Qed.


Lemma spider_crawl_run pages w :
  spider_crawl pages w =
    ({| NB_INDEXED := NB_INDEXED w + total_records pages;
        middleware_driver := middleware_driver w |},
     spider_calls pages, Returned ()).
Proof.
  revert w. induction pages as [|p pages IH]; intros [nb d].
  - simpl. unfold mret, M_ret. by rewrite Z.add_0_r.
  - cbn [spider_crawl]. unfold add_records.
    unfold mbind, M_bind, emit, get_NB_INDEXED, set_NB_INDEXED. simpl.
    rewrite IH. simpl. do 3 f_equal. lia.
Qed.

Lemma setup_run config_path w :
  setup config_path w =
    (let config := load_config config_path in
     ({| NB_INDEXED := 0; middleware_driver := Some (driver config) |},
      [NewDefaultStrategy config;
       NewTypesenseHelper (index_name config) (index_name_tmp config)
         (custom_settings config)],
      Returned config)).
Proof. reflexivity. Qed.

Lemma resolve_headers_run env w :
  resolve_headers env w =
    (w, scheme_calls env (first_configured env), Returned (run_headers env)).
Proof.
  unfold resolve_headers, run_headers, first_configured, scheme_order, configured.
  simpl. rewrite !andb_true_r.
  destruct (Env.truthy (Env.getenv env "CF_ACCESS_CLIENT_ID")
            && Env.truthy (Env.getenv env "CF_ACCESS_CLIENT_SECRET")); [done|].
  destruct (Env.truthy (Env.getenv env "IAP_AUTH_CLIENT_ID")
            && Env.truthy (Env.getenv env "IAP_AUTH_SERVICE_ACCOUNT_JSON")); [done|].
  rewrite <- !andb_assoc.
  destruct (Env.truthy (Env.getenv env "KC_URL")
            && (Env.truthy (Env.getenv env "KC_REALM")
            && (Env.truthy (Env.getenv env "KC_CLIENT_ID")
            && Env.truthy (Env.getenv env "KC_CLIENT_SECRET")))); [done|].
  unfold Env.update. simpl. by rewrite (left_id_L ∅ (∪)).
Qed.

Lemma crawl_run config headers w :
  crawl config headers w =
    (let settings := crawler_settings config headers in
     let pages := crawled_pages config settings in
     ({| NB_INDEXED := NB_INDEXED w + total_records pages;
         middleware_driver := middleware_driver w |},
      [NewCrawlerProcess settings; ProcessCrawl config; ProcessStart]
        ++ spider_calls pages ++ [ProcessStop; BrowserDestroy (driver config)],
      Returned ())).
Proof.
  unfold crawl. cbv zeta.
  set (settings := crawler_settings config headers).
  set (pages := crawled_pages config settings).
  unfold mbind, M_bind, emit. rewrite spider_crawl_run. reflexivity.
Qed.

Lemma finish_run config w :
  finish config w =
    (w, extra_calls config ++ PrintLine "" :: gate_calls config (NB_INDEXED w),
     if bool_decide (0 < NB_INDEXED w)
     then Returned () else SystemExit EXIT_CODE_NO_RECORD).
Proof.
  unfold finish, extra_calls, gate_calls, add_records, print.
  unfold mbind, M_bind, emit, get_NB_INDEXED, exit, mret, M_ret.
  destruct (extra_records config) as [|r rs]; simpl;
    destruct (bool_decide (0 < NB_INDEXED w)); reflexivity.
Qed.

(** The whole run, in one equation. *)
Lemma run_config_run env config_path w :
  run_config env config_path w =
    (let config := load_config config_path in
     let nb := run_total env config_path in
     ({| NB_INDEXED := nb; middleware_driver := Some (driver config) |},
      [NewDefaultStrategy config;
       NewTypesenseHelper (index_name config) (index_name_tmp config)
         (custom_settings config)]
        ++ scheme_calls env (first_configured env)
        ++ [NewCrawlerProcess (run_settings env config_path);
            ProcessCrawl config; ProcessStart]
        ++ spider_calls (run_pages env config_path)
        ++ [ProcessStop; BrowserDestroy (driver config)]
        ++ extra_calls config
        ++ PrintLine "" :: gate_calls config nb,
      if bool_decide (0 < nb)
      then Returned () else SystemExit EXIT_CODE_NO_RECORD)).
Proof.
  unfold run_config.
  rewrite (bind_returned _ _ _ _ _ _ (setup_run config_path w)).
  rewrite (bind_returned _ _ _ _ _ _ (resolve_headers_run env _)).
  rewrite (bind_returned _ _ _ _ _ _ (crawl_run _ _ _)).
  rewrite finish_run. cbv zeta. simpl NB_INDEXED. rewrite Z.add_0_l.
  unfold run_total, run_pages, run_settings.
  simpl middleware_driver. rewrite <- !app_assoc. reflexivity.
Qed.

(** ** Reading the log of a run *)

Lemma omap_spider_calls {B} (f : event → option B) pages :
  (∀ rs u b, f (AddRecords rs u b) = None) → omap f (spider_calls pages) = [].
Proof.
  intros Hf. induction pages as [|p pages IH]; [done|].
  unfold spider_calls in *. rewrite fmap_cons. simpl. by rewrite Hf.
Qed.

Lemma omap_scheme_calls {B} (f : event → option B) env s :
  blind_to_traffic f → omap f (scheme_calls env s) = [].
Proof.
  intros (_ & Hiap & Hkc). destruct s as [[]|]; simpl; [done| | |done].
  - by rewrite Hiap.
  - by rewrite Hkc.
Qed.

Lemma omap_extra_calls {B} (f : event → option B) config :
  (∀ rs u b, f (AddRecords rs u b) = None) → omap f (extra_calls config) = [].
Proof.
  intros Hf. unfold extra_calls. destruct (extra_records config); [done|].
  simpl. by rewrite Hf.
Qed.

(** What a reader that skips the records added finds in the log of a
    run. *)
Lemma omap_run_config {B} (f : event → option B) env config_path w :
  (∀ rs u b, f (AddRecords rs u b) = None) →
  omap f (events (run_config env config_path w)) =
    (let config := load_config config_path in
     omap f [NewDefaultStrategy config;
             NewTypesenseHelper (index_name config) (index_name_tmp config)
               (custom_settings config)]
       ++ omap f (scheme_calls env (first_configured env))
       ++ omap f [NewCrawlerProcess (run_settings env config_path);
                  ProcessCrawl config; ProcessStart]
       ++ omap f [ProcessStop; BrowserDestroy (driver config)]
       ++ omap f (PrintLine "" :: gate_calls config (run_total env config_path))).
Proof.
  intros Hadd. rewrite run_config_run. unfold events. cbv zeta. cbn [fst snd].
  set (config := load_config config_path).
  rewrite !omap_app.
  rewrite (omap_spider_calls f _ Hadd), (omap_extra_calls f _ Hadd).
  reflexivity.
Qed.

(** The same for a reader that skips the token exchanges too. *)
Lemma omap_run_config_blind {B} (f : event → option B) env config_path w :
  blind_to_traffic f →
  omap f (events (run_config env config_path w)) =
    (let config := load_config config_path in
     omap f [NewDefaultStrategy config;
             NewTypesenseHelper (index_name config) (index_name_tmp config)
               (custom_settings config)]
       ++ omap f [NewCrawlerProcess (run_settings env config_path);
                  ProcessCrawl config; ProcessStart]
       ++ omap f [ProcessStop; BrowserDestroy (driver config)]
       ++ omap f (PrintLine "" :: gate_calls config (run_total env config_path))).
Proof.
  intros Hf. rewrite omap_run_config by apply Hf.
  cbv zeta. by rewrite (omap_scheme_calls f env _ Hf).
Qed.

Lemma count_omap (p : event → bool) log :
  count p log = length (omap (λ e, if p e then Some e else None) log).
Proof.
  induction log as [|e log IH]; [done|]. simpl. rewrite IH.
  by destruct (p e).
Qed.

Lemma count_app (p : event → bool) l1 l2 :
  count p (l1 ++ l2) = (count p l1 + count p l2)%nat.
Proof. rewrite !count_omap, omap_app, length_app. reflexivity. Qed.

Lemma count_spider_calls (p : event → bool) pages :
  (∀ rs u b, p (AddRecords rs u b) = false) → count p (spider_calls pages) = 0%nat.
Proof.
  intros Hp. rewrite count_omap, omap_spider_calls; [done|].
  intros. by rewrite Hp.
Qed.

(** The counter after a run, its sign, and the result of the run. *)
Lemma run_config_NB_INDEXED env config_path w :
  NB_INDEXED (final_world (run_config env config_path w)) = run_total env config_path.
Proof. by rewrite run_config_run. Qed.



Lemma keep_blind (p : event → bool) :
  (∀ rs u b, p (AddRecords rs u b) = false) →
  (∀ a b, p (IAPAuth a b) = false) →
  (∀ a b c d, p (KeycloakClientCredentials a b c d) = false) →
  blind_to_traffic (keep p).
Proof.
  intros Hadd Hiap Hkc. unfold keep.
  split; [|split]; intros; by rewrite ?Hadd, ?Hiap, ?Hkc.
Qed.

Lemma count_keep (p : event → bool) log : count p log = length (omap (keep p) log).
Proof. apply count_omap. Qed.


Lemma count_extra_calls (p : event → bool) config :
  (∀ rs u b, p (AddRecords rs u b) = false) → count p (extra_calls config) = 0%nat.
Proof.
  intros Hp. rewrite count_keep, omap_extra_calls; [done|].
  intros. unfold keep. by rewrite Hp.
Qed.

Lemma is_commit_blind : blind_to_traffic (keep is_commit).
Proof. by apply keep_blind. Qed.


(** ** The commit gate *)



Lemma nb_hits_updates_blind :
  blind_to_traffic (λ e, match e with UpdateNbHitsValue n => Some n | _ => None end).
Proof. by repeat split. Qed.


Lemma printed_blind :
  blind_to_traffic (λ e, match e with PrintLine line => Some line | _ => None end).
Proof. by repeat split. Qed.


(** ** The temporary collection *)




(** ** Extra records *)

Lemma add_records_world rs u b w : final_world (add_records rs u b w) = w.
Proof. reflexivity. Qed.


(** ** The counter across runs *)

(** C8. [setup], the first thing [run_config] does, puts [NB_INDEXED]
    back to 0 before any record is added, whatever an earlier run left
    there. So the counter a run ends with is the number of records of
    that run alone, and its log, result and final state do not depend on
    the state it started from; this also holds for a run that follows
    another one in the same process. *)
Theorem counter_reset_each_run env config_path w w' env0 config_path0 :
  NB_INDEXED (final_world (setup config_path w)) = 0 ∧
  count is_add_records (events (setup config_path w)) = 0%nat ∧
  NB_INDEXED (final_world (run_config env config_path w))
    = total_records (run_pages env config_path) ∧
  run_config env config_path w = run_config env config_path w' ∧
  run_config env config_path (final_world (run_config env0 config_path0 w))
    = run_config env config_path w.
Proof.
  split; [reflexivity|]. split; [reflexivity|].
  split; [apply run_config_NB_INDEXED|].
  rewrite !run_config_run. split; reflexivity.
Qed.

(** ** Authentication headers *)

(** The chain of tests, case by case. *)
Lemma first_configured_cases env :
  (configured env Cloudflare = true ∧ first_configured env = Some Cloudflare) ∨
  (configured env Cloudflare = false ∧ configured env IAP = true ∧
   first_configured env = Some IAP) ∨
  (configured env Cloudflare = false ∧ configured env IAP = false ∧
   configured env Keycloak = true ∧ first_configured env = Some Keycloak) ∨
  (configured env Cloudflare = false ∧ configured env IAP = false ∧
   configured env Keycloak = false ∧ first_configured env = None).
Proof.
  unfold first_configured, scheme_order. cbn [List.find].
  destruct (configured env Cloudflare); [by left|].
  destruct (configured env IAP); [by right; left|].
  destruct (configured env Keycloak); [by right; right; left|].
  by right; right; right.
Qed.

Lemma truthy_is_Some (v : option string) : Env.truthy v = true → is_Some v.
Proof. destruct v; [eauto|discriminate]. Qed.

Lemma configured_vars_set env s :
  configured env s = true → Forall (λ k, is_Some (env !! k)) (scheme_vars s).
Proof.
  unfold configured. rewrite forallb_forall, Forall_forall.
  intros Hall k Hk. apply truthy_is_Some, Hall. by apply list_elem_of_In.
Qed.

Lemma partially_configured_not env s :
  partially_configured env s = true → configured env s = false.
Proof.
  unfold partially_configured. intros [_ Hn]%andb_true_iff.
  by apply negb_true_iff.
Qed.

Lemma scheme_headers_accept env s : scheme_headers env s !! "Accept" = None.
Proof. destruct s as [[]|]; by simplify_map_eq. Qed.

Lemma scheme_headers_accept_language env s :
  scheme_headers env s !! "Accept-Language" = None.
Proof. destruct s as [[]|]; by simplify_map_eq. Qed.

Lemma request_headers_blind :
  ∀ rs u b,
    match AddRecords rs u b with
    | NewCrawlerProcess s => Some (DEFAULT_REQUEST_HEADERS s)
    | _ => None
    end = None.
Proof. done. Qed.

(** One crawler process is built in a run, with the resolved headers. *)
Lemma request_headers_run env config_path w :
  request_headers (events (run_config env config_path w)) = [run_headers env].
Proof.
  unfold request_headers. rewrite omap_run_config by done. cbv zeta.
  rewrite omap_scheme_calls by by repeat split.
  unfold gate_calls. by case_bool_decide.
Qed.





Lemma first_configured_Some env s :
  first_configured env = Some s → configured env s = true.
Proof.
  destruct (first_configured_cases env)
    as [(? & ->)|[(? & ? & ->)|[(? & ? & ? & ->)|(? & ? & ? & ->)]]];
    intros [= <-]; done.
Qed.

(** The scheme behind a header or a call. *)
Lemma cloudflare_header_origin env s :
  is_Some ((scheme_headers env s ∪ default_headers) !! "CF-Access-Client-Id") ∨
  is_Some ((scheme_headers env s ∪ default_headers) !! "CF-Access-Client-Secret") →
  s = Some Cloudflare.
Proof.
  destruct s as [[]|]; [done|..]; intros [[v Hv]|[v Hv]]; by simplify_map_eq.
Qed.

Lemma authorization_header_origin env s :
  is_Some ((scheme_headers env s ∪ default_headers) !! "Authorization") →
  s = Some IAP ∨ s = Some Keycloak.
Proof.
  destruct s as [[]|]; [|by left|by right|]; intros [v Hv]; by simplify_map_eq.
Qed.

Lemma iap_call_origin env s a b : IAPAuth a b ∈ scheme_calls env s → s = Some IAP.
Proof.
  destruct s as [[]|]; cbn [scheme_calls]; [|done|..];
    intros Hin; repeat (inversion Hin as [|? ? ? Hin']; subst; clear Hin;
                        rename Hin' into Hin).
Qed.

Lemma keycloak_call_origin env s a b c d :
  KeycloakClientCredentials a b c d ∈ scheme_calls env s → s = Some Keycloak.
Proof.
  destruct s as [[]|]; cbn [scheme_calls]; [| |done|];
    intros Hin; repeat (inversion Hin as [|? ? ? Hin']; subst; clear Hin;
                        rename Hin' into Hin).
Qed.

(** C9. A scheme leaves a trace in the resolved headers or in the log
    only when each of its variables is set. A scheme with some variable
    missing or empty is not configured; it then adds no header and makes
    no call, and the chain goes on to the next scheme, which is selected
    when it is configured. *)
Theorem scheme_needs_all_its_variables env w :
  let r := resolve_headers env w in
  ∃ hs, outcome r = Returned hs ∧
    (is_Some (hs !! "CF-Access-Client-Id") ∨ is_Some (hs !! "CF-Access-Client-Secret") →
     Forall (λ k, is_Some (env !! k)) (scheme_vars Cloudflare)) ∧
    (∀ a b, IAPAuth a b ∈ events r →
     Forall (λ k, is_Some (env !! k)) (scheme_vars IAP)) ∧
    (∀ a b c d, KeycloakClientCredentials a b c d ∈ events r →
     Forall (λ k, is_Some (env !! k)) (scheme_vars Keycloak)) ∧
    (is_Some (hs !! "Authorization") →
     Forall (λ k, is_Some (env !! k)) (scheme_vars IAP) ∨
     Forall (λ k, is_Some (env !! k)) (scheme_vars Keycloak)) ∧
    (∀ s, partially_configured env s = true → configured env s = false) ∧
    (configured env Cloudflare = false →
     hs !! "CF-Access-Client-Id" = None ∧ hs !! "CF-Access-Client-Secret" = None) ∧
    (configured env IAP = false → ∀ a b, IAPAuth a b ∉ events r) ∧
    (configured env Keycloak = false →
     ∀ a b c d, KeycloakClientCredentials a b c d ∉ events r) ∧
    (configured env Cloudflare = false → configured env IAP = true →
     events r = scheme_calls env (Some IAP) ∧
     hs = Env.update default_headers (scheme_headers env (Some IAP))) ∧
    (configured env Cloudflare = false → configured env IAP = false →
     configured env Keycloak = true →
     events r = scheme_calls env (Some Keycloak) ∧
     hs = Env.update default_headers (scheme_headers env (Some Keycloak))).
Proof.
  intros r. subst r. rewrite resolve_headers_run.
  exists (run_headers env). split; [reflexivity|].
  unfold outcome, events, run_headers, Env.update. cbn [fst snd].
  pose proof (first_configured_Some env) as Hsel.
  repeat apply conj.
  - intros Hcf%cloudflare_header_origin. by apply configured_vars_set, Hsel.
  - intros a b Hin%iap_call_origin. by apply configured_vars_set, Hsel.
  - intros a b c d Hin%keycloak_call_origin. by apply configured_vars_set, Hsel.
  - intros [Hs|Hs]%authorization_header_origin; [left|right];
      by apply configured_vars_set, Hsel.
  - apply partially_configured_not.
  - intros Hcf.
    destruct ((scheme_headers env (first_configured env) ∪ default_headers)
                !! "CF-Access-Client-Id") as [v|] eqn:Hid.
    { assert (first_configured env = Some Cloudflare) as Hs
        by (apply (cloudflare_header_origin env); left; rewrite Hid; eauto).
      apply Hsel in Hs. congruence. }
    destruct ((scheme_headers env (first_configured env) ∪ default_headers)
                !! "CF-Access-Client-Secret") as [v|] eqn:Hsec; [|done].
    assert (first_configured env = Some Cloudflare) as Hs
      by (apply (cloudflare_header_origin env); right; rewrite Hsec; eauto).
    apply Hsel in Hs. congruence.
  - intros Hiap a b Hs%iap_call_origin. apply Hsel in Hs. congruence.
  - intros Hkc a b c d Hs%keycloak_call_origin. apply Hsel in Hs. congruence.
  - intros Hcf Hiap.
    destruct (first_configured_cases env)
      as [(? & _)|[(_ & _ & ->)|[(_ & ? & _)|(_ & ? & _)]]]; [congruence|done|congruence..].
  - intros Hcf Hiap Hkc.
    destruct (first_configured_cases env)
      as [(? & _)|[(_ & ? & _)|[(_ & _ & _ & ->)|(_ & _ & ? & _)]]];
      [congruence..|done|congruence].
Qed.

(** C10. Whatever the chain selects, the headers handed to the crawler
    process still map [Accept] and [Accept-Language] to their default
    values: every default entry is an entry of the result. *)
Theorem default_headers_kept env config_path w :
  let r := run_config env config_path w in
  ∃ hs, request_headers (events r) = [hs] ∧
    outcome (resolve_headers env w) = Returned hs ∧
    hs !! "Accept"
      = Some "text/html,application/xhtml+xml,application/xml;q=0.9,*/*;q=0.8" ∧
    hs !! "Accept-Language" = Some "en" ∧
    default_headers ⊆ hs.
Proof.
  intros r. subst r. exists (run_headers env).
  rewrite request_headers_run, resolve_headers_run.
  split; [reflexivity|]. split; [reflexivity|].
  unfold run_headers, Env.update.
  assert (Ha : (scheme_headers env (first_configured env) ∪ default_headers) !! "Accept"
               = default_headers !! "Accept").
  { apply lookup_union_r, scheme_headers_accept. }
  assert (Hl : (scheme_headers env (first_configured env) ∪ default_headers)
                 !! "Accept-Language" = default_headers !! "Accept-Language").
  { apply lookup_union_r, scheme_headers_accept_language. }
  split; [by rewrite Ha|]. split; [by rewrite Hl|].
  apply map_subseteq_spec. intros k v Hk.
  unfold default_headers in Hk.
  apply lookup_insert_Some in Hk as [[<- <-]|[_ Hk]]; [by rewrite Ha|].
  apply lookup_singleton_Some in Hk as [<- <-]. by rewrite Hl.
Qed.

(** ** The steps of a run *)

Lemma lifecycle_step_blind : blind_to_traffic lifecycle_step.
Proof. by repeat split. Qed.


(** The browser is destroyed before the driver prints anything, adds an
    extra record, promotes the collection or reports a hit count: all of
    that is in the part of the log that follows it. *)
Theorem browser_destroyed_before_gate env config_path w :
  let config := load_config config_path in
  let r := run_config env config_path w in
  ∃ pre post,
    events r = pre ++ BrowserDestroy (driver config) :: post ∧
    printed pre = [] ∧ count is_commit pre = 0%nat ∧ nb_hits_updates pre = [] ∧
    post = extra_calls config ++ PrintLine "" :: gate_calls config (NB_INDEXED (final_world r)) ∧
    printed post = printed (events r).
Proof.
  intros config r. subst r. rewrite run_config_NB_INDEXED.
  set (head := [NewDefaultStrategy config;
                NewTypesenseHelper (index_name config) (index_name_tmp config)
                  (custom_settings config)]
               ++ scheme_calls env (first_configured env)
               ++ [NewCrawlerProcess (run_settings env config_path);
                   ProcessCrawl config; ProcessStart]
               ++ spider_calls (run_pages env config_path) ++ [ProcessStop]).
  assert (Hlog : events (run_config env config_path w) =
                 head ++ BrowserDestroy (driver config)
                   :: extra_calls config
                   ++ PrintLine "" :: gate_calls config (run_total env config_path)).
  { rewrite run_config_run. subst head. unfold events. cbv zeta. cbn [fst snd].
    fold config. rewrite <- !app_assoc. reflexivity. }
  assert (Hquiet : printed head = [] ∧ count is_commit head = 0%nat
                   ∧ nb_hits_updates head = []).
  { subst head. unfold printed, nb_hits_updates. rewrite count_keep, !omap_app.
    rewrite (omap_scheme_calls _ _ _ printed_blind).
    rewrite (omap_scheme_calls _ _ _ nb_hits_updates_blind).
    rewrite (omap_scheme_calls _ _ _ is_commit_blind).
    by rewrite !omap_spider_calls. }
  destruct Hquiet as (Hp & Hc & Hu).
  exists head, (extra_calls config
                ++ PrintLine "" :: gate_calls config (run_total env config_path)).
  repeat split; try done.
  rewrite Hlog. unfold printed in *. rewrite (omap_app _ head), Hp. reflexivity.
Qed.

(** ** Order of the other calls *)

(** The token exchange of the selected scheme, if it has one, is made
    before the crawler process is built: at most one exchange precedes
    it, no record has been added yet, and no exchange follows it. *)
Theorem token_exchange_before_process env config_path w :
  let r := run_config env config_path w in
  ∃ pre post,
    events r = pre ++ NewCrawlerProcess (run_settings env config_path) :: post ∧
    (count is_token_exchange pre ≤ 1)%nat ∧
    count is_add_records pre = 0%nat ∧
    count is_new_process pre = 0%nat ∧
    count is_token_exchange post = 0%nat ∧
    count is_new_process post = 0%nat.
Proof.
  intros r. subst r. rewrite run_config_run. unfold events. cbv zeta. cbn [fst snd].
  set (config := load_config config_path).
  exists ([NewDefaultStrategy config;
           NewTypesenseHelper (index_name config) (index_name_tmp config)
             (custom_settings config)]
          ++ scheme_calls env (first_configured env)),
    ([ProcessCrawl config; ProcessStart]
       ++ spider_calls (run_pages env config_path)
       ++ [ProcessStop; BrowserDestroy (driver config)]
       ++ extra_calls config
       ++ PrintLine "" :: gate_calls config (run_total env config_path)).
  split; [by rewrite <- !app_assoc|].
  rewrite !count_app.
  rewrite !count_spider_calls, !count_extra_calls by done.
  unfold gate_calls.
  destruct (first_configured env) as [[]|]; case_bool_decide; cbn; repeat split; lia.
Qed.

(** After [process.stop()] the driver adds records at most once: once,
    with the extra records of the configuration, when there are some,
    and not at all when the list is empty. *)
Theorem records_added_after_crawl env config_path w :
  let config := load_config config_path in
  let r := run_config env config_path w in
  ∃ pre post,
    events r = pre ++ ProcessStop :: post ∧
    count is_process_stop pre = 0%nat ∧
    (extra_records config = [] → count is_add_records post = 0%nat) ∧
    (extra_records config ≠ [] →
     omap (keep is_add_records) post
       = [AddRecords (extra_records config) "Extra records" false]).
Proof.
  intros config r. subst r. rewrite run_config_run. unfold events. cbv zeta. cbn [fst snd].
  fold config.
  exists ([NewDefaultStrategy config;
           NewTypesenseHelper (index_name config) (index_name_tmp config)
             (custom_settings config)]
          ++ scheme_calls env (first_configured env)
          ++ [NewCrawlerProcess (run_settings env config_path);
              ProcessCrawl config; ProcessStart]
          ++ spider_calls (run_pages env config_path)),
    ([BrowserDestroy (driver config)]
       ++ extra_calls config
       ++ PrintLine "" :: gate_calls config (run_total env config_path)).
  split; [by rewrite <- !app_assoc|].
  split.
  { rewrite !count_app, count_spider_calls by done.
    by destruct (first_configured env) as [[]|]. }
  unfold extra_calls, gate_calls.
  destruct (extra_records config) as [|x xs]; split; try done;
    intros _; by case_bool_decide.
Qed.


(** ** More on the authentication headers *)

Lemma truthy_str (v : option string) :
  Env.truthy v = negb (String.eqb (Env.str v) "").
Proof. by destruct v. Qed.


(** The chain reads the environment through the string value of each
    variable only, so two environments that give every variable the same
    string value resolve alike. *)
Lemma resolve_same_strings env env' :
  (∀ k, Env.str (env !! k) = Env.str (env' !! k)) →
  first_configured env = first_configured env' ∧
  (∀ s, scheme_headers env s = scheme_headers env' s) ∧
  (∀ s, scheme_calls env s = scheme_calls env' s).
Proof.
  intros Hstr. split; [|split].
  - unfold first_configured, scheme_order, configured, Env.getenv.
    cbn [List.find forallb scheme_vars]. rewrite !truthy_str, !Hstr. reflexivity.
  - intros [[]|]; cbn [scheme_headers]; unfold Env.getenv; by rewrite ?Hstr.
  - intros [[]|]; cbn [scheme_calls]; unfold Env.getenv; by rewrite ?Hstr.
Qed.

(** A variable set to the empty string is the same as a variable that
    is not set: the two runs are equal, log, result and final state. *)
Theorem empty_variable_is_unset env k config_path w :
  run_config (<[k := ""]> env) config_path w = run_config (delete k env) config_path w.
Proof.
  assert (Hstr : ∀ j, Env.str (<[k := ""]> env !! j) = Env.str (delete k env !! j)).
  { intros j. destruct (decide (k = j)) as [->|Hne].
    - by rewrite lookup_insert_eq, lookup_delete_eq.
    - by rewrite lookup_insert_ne, lookup_delete_ne. }
  destruct (resolve_same_strings _ _ Hstr) as (Hfc & Hh & Hc).
  rewrite !run_config_run. cbv zeta.
  unfold run_total, run_pages, run_settings, run_headers.
  rewrite Hfc, Hh, Hc. reflexivity.
Qed.



(** The resolved headers carry the credentials of one scheme at most:
    the two Cloudflare headers come together or not at all, never next
    to an [Authorization] header, and no key other than these three and
    the two defaults is ever sent. *)
Theorem one_scheme_in_headers env w :
  let r := resolve_headers env w in
  ∃ hs, outcome r = Returned hs ∧
    (is_Some (hs !! "CF-Access-Client-Id") ↔ is_Some (hs !! "CF-Access-Client-Secret")) ∧
    (is_Some (hs !! "Authorization") → hs !! "CF-Access-Client-Id" = None) ∧
    dom hs ⊆ {[ "Accept"; "Accept-Language"; "CF-Access-Client-Id";
                "CF-Access-Client-Secret"; "Authorization" ]} ∧
    (2 ≤ size hs ≤ 4)%nat.
Proof.
  intros r. subst r. rewrite resolve_headers_run.
  exists (run_headers env). split; [reflexivity|].
  unfold run_headers, Env.update.
  destruct (first_configured env) as [[]|]; cbn [scheme_headers].
  1: generalize (Env.str (Env.getenv env "CF_ACCESS_CLIENT_ID")),
                (Env.str (Env.getenv env "CF_ACCESS_CLIENT_SECRET")); intros id secret.
  2: generalize (iap_authorization (Env.str (Env.getenv env "IAP_AUTH_CLIENT_ID"))
                   (Env.str (Env.getenv env "IAP_AUTH_SERVICE_ACCOUNT_JSON")));
     intros token.
  3: generalize ("bearer " +:+
                 keycloak_access_token (Env.str (Env.getenv env "KC_URL"))
                   (Env.str (Env.getenv env "KC_REALM"))
                   (Env.str (Env.getenv env "KC_CLIENT_ID"))
                   (Env.str (Env.getenv env "KC_CLIENT_SECRET")));
     intros token.
  all: repeat split.
  all: try (vm_compute; eauto; fail).
  all: try (vm_compute; lia).
  all: try (intros [v Hv]; vm_compute in Hv; discriminate).
  all: apply (bool_decide_unpack _); vm_compute; exact I.
Qed.

(** ** The crawler settings *)

(** The prefix of the class paths is the same whether the module is run
    as a script or imported. In every run one crawler process is built,
    with the user agent and the anchor flag of the configuration, the
    custom duplicate filter, and the custom downloader middleware at a
    priority above 600, the one of the redirect middleware; of all the
    settings only the request headers depend on the environment. *)
Theorem crawler_settings_of_run env env' config_path w :
  let config := load_config config_path in
  (∀ name, root_module_for name = root_module) ∧
  ∃ s s',
    built_processes (events (run_config env config_path w)) = [s] ∧
    built_processes (events (run_config env' config_path w)) = [s'] ∧
    USER_AGENT s = user_agent config ∧
    DUPEFILTER_USE_ANCHORS s = use_anchors config ∧
    DUPEFILTER_CLASS s = "scraper.src.custom_dupefilter.CustomDupeFilter" ∧
    DOWNLOADER_MIDDLEWARES s =
      [("scraper.src.custom_downloader_middleware.CustomDownloaderMiddleware", 900)] ∧
    Forall (λ m, 600 < m.2) (DOWNLOADER_MIDDLEWARES s) ∧
    (LOG_ENABLED s, LOG_LEVEL s, TELNETCONSOLE_ENABLED s) = ("1", "ERROR", false) ∧
    (LOG_ENABLED s', LOG_LEVEL s', USER_AGENT s', DOWNLOADER_MIDDLEWARES s',
     DUPEFILTER_USE_ANCHORS s', DUPEFILTER_CLASS s', TELNETCONSOLE_ENABLED s')
    = (LOG_ENABLED s, LOG_LEVEL s, USER_AGENT s, DOWNLOADER_MIDDLEWARES s,
       DUPEFILTER_USE_ANCHORS s, DUPEFILTER_CLASS s, TELNETCONSOLE_ENABLED s).
Proof.
  intros config.
  split; [intros name; unfold root_module_for; by destruct (String.eqb _ _)|].
  assert (Hbuilt : ∀ e, built_processes (events (run_config e config_path w))
                        = [run_settings e config_path]).
  { intros e. unfold built_processes. rewrite omap_run_config_blind by by repeat split.
    unfold gate_calls. by case_bool_decide. }
  exists (run_settings env config_path), (run_settings env' config_path).
  rewrite !Hbuilt. repeat split; try done.
  repeat constructor.
Qed.

(** ** The script *)



End DriverFacts.

(** ** The driver on the concrete deployment *)

(** A run over the two pages, with no authentication: the whole log. *)
Example run_site_log :
  @run_config Demo.types Demo.site Demo.no_auth "curling" Demo.used_world =
    (@Build_world Demo.types 3 (Some "firefox"),
     [NewDefaultStrategy (Demo.config_at "curling");
      @NewTypesenseHelper Demo.types "curling" "curling_tmp" "{}";
      NewCrawlerProcess (crawler_settings (Demo.config_at "curling") default_headers);
      ProcessCrawl (Demo.config_at "curling");
      ProcessStart;
      @AddRecords Demo.types [1%nat; 2%nat] "https://curling.io/docs/" false;
      @AddRecords Demo.types [3%nat] "https://curling.io/docs/a" false;
      ProcessStop;
      @BrowserDestroy Demo.types "firefox";
      @AddRecords Demo.types [100%nat] "Extra records" false;
      PrintLine "";
      CommitTmpCollection;
      PrintLine "Nb hits: 3";
      UpdateNbHitsValue 3;
      PrintLine ""],
     Returned ()).
Proof. vm_compute. reflexivity. Qed.

(** The same configuration when the crawl finds nothing: the extra
    record is still added, nothing is promoted, and the process exits. *)
Example run_empty_site_log :
  @run_config Demo.types Demo.empty_site Demo.no_auth "curling" Demo.used_world =
    (@Build_world Demo.types 0 (Some "firefox"),
     [NewDefaultStrategy (Demo.config_at "curling");
      @NewTypesenseHelper Demo.types "curling" "curling_tmp" "{}";
      NewCrawlerProcess (crawler_settings (Demo.config_at "curling") default_headers);
      ProcessCrawl (Demo.config_at "curling");
      ProcessStart;
      ProcessStop;
      @BrowserDestroy Demo.types "firefox";
      @AddRecords Demo.types [100%nat] "Extra records" false;
      PrintLine "";
      PrintLine "Crawling issue: nbHits 0 for curling"],
     SystemExit 3).
Proof. vm_compute. reflexivity. Qed.

Example resolve_cloudflare :
  @resolve_headers Demo.types Demo.site Demo.cloudflare_env Demo.fresh_world =
    (Demo.fresh_world, @nil (@event Demo.types),
     Returned {[ "Accept" := "text/html,application/xhtml+xml,application/xml;q=0.9,*/*;q=0.8";
                 "Accept-Language" := "en";
                 "CF-Access-Client-Id" := "id.access";
                 "CF-Access-Client-Secret" := "s3cret" ]}).
Proof. vm_compute. reflexivity. Qed.

(** Cloudflare is half set: the chain moves on and the proxy is used. *)
Example resolve_half_cloudflare :
  @resolve_headers Demo.types Demo.site Demo.half_cloudflare_env Demo.fresh_world =
    (Demo.fresh_world, [@IAPAuth Demo.types "iap-client" "{}"],
     Returned {[ "Accept" := "text/html,application/xhtml+xml,application/xml;q=0.9,*/*;q=0.8";
                 "Accept-Language" := "en";
                 "Authorization" := "Bearer iap-token" ]}).
Proof. vm_compute. reflexivity. Qed.

Example resolve_keycloak :
  @resolve_headers Demo.types Demo.site Demo.keycloak_env Demo.fresh_world =
    (Demo.fresh_world,
     [@KeycloakClientCredentials Demo.types "https://kc" "docs" "scraper" "kc-secret"],
     Returned {[ "Accept" := "text/html,application/xhtml+xml,application/xml;q=0.9,*/*;q=0.8";
                 "Accept-Language" := "en";
                 "Authorization" := "bearer kc-token" ]}).
Proof. vm_compute. reflexivity. Qed.

(** A variable set to the empty string counts as missing. *)
Example resolve_empty_secret :
  @resolve_headers Demo.types Demo.site
    (<["CF_ACCESS_CLIENT_SECRET" := ""]> Demo.cloudflare_env) Demo.fresh_world =
    (Demo.fresh_world, @nil (@event Demo.types), Returned default_headers).
Proof. vm_compute. reflexivity. Qed.



(** ** The start of the module *)

(** The block that disables boto never raises: a missing
    [optional_features] is passed over, and [remove] is only called on a
    set that holds "boto", so its [KeyError] cannot occur. What it leaves
    is the set without "boto" and with every other feature, and running
    the block again changes nothing. *)
Theorem disable_boto_never_raises (imported : option (gset string)) :
  ∃ r, Startup.disable_boto imported = inr r ∧
    (r = None ↔ imported = None) ∧
    (∀ s s', imported = Some s → r = Some s' →
             ("boto" ∉ s') ∧ (∀ x, x ≠ "boto" → (x ∈ s' ↔ x ∈ s))) ∧
    Startup.disable_boto r = inr r.
Proof.
  destruct imported as [s|]; [|exists None; by repeat split].
  destruct (decide ("boto" ∈ s)) as [Hin|Hnotin].
  - assert (Hgone : "boto" ∉ s ∖ {["boto"]}).
    { rewrite elem_of_difference, elem_of_singleton. by intros [_ Hne]. }
    exists (Some (s ∖ {["boto"]})). split; [|split; [|split]].
    + unfold Startup.disable_boto, Startup.set_remove. by rewrite !decide_True.
    + done.
    + intros s1 s2 Hs1 Hs2. simplify_eq. split; [done|].
      intros x Hx. rewrite elem_of_difference, elem_of_singleton. tauto.
    + unfold Startup.disable_boto. by rewrite decide_False.
  - exists (Some s). split; [|split; [|split]].
    + unfold Startup.disable_boto. by rewrite decide_False.
    + done.
    + intros s1 s2 Hs1 Hs2. by simplify_eq.
    + unfold Startup.disable_boto. by rewrite decide_False.
Qed.

(** ** The summary on the concrete deployment *)

